(** * Carrier adapters: Australia Post rate mapper and Purolator document request

    A shallow embedding of

    - [purplship/carriers/aups/shipping/shipping_price.py]
      (rate request builder and rate response parser), and
    - [purplship/providers/purolator/shipment/documents.py]
      (shipping documents request builder),

    followed by the properties of both mappers.

    Python values are embedded as follows.  An attribute that may hold
    [None] is an [option]; a [str] is a [string]; a [float] or [int] that
    the mappers only move from one object to another is a rational [Q];
    a [list] is a [list]; a class is a [Record]; a [raise] is the [Raise]
    constructor of [outcome].  *)

From Stdlib Require Import String Ascii List Bool QArith.
Import ListNotations.
Open Scope string_scope.

(* ===================================================================== *)
(** ** Python expressions used by both mappers *)
(* ===================================================================== *)

Module Py.

(** Truth value of an optional [str]: [None] and the empty string are
    falsy, every other string is truthy. *)
Definition truthy (s : option string) : bool :=
  match s with
  | None => false
  | Some EmptyString => false
  | Some (String _ _) => true
  end.

(** [a or b] for an optional [str] on the left and a [str] on the right. *)
Definition or_str (a : option string) (b : string) : string :=
  match a with
  | Some (String c s) => String c s
  | _ => b
  end.

(** [a or b] where [a] is an optional object (objects are truthy). *)
Definition or_obj {A : Type} (a : option A) (b : A) : A :=
  match a with
  | Some x => x
  | None => b
  end.

(** [a == b] on optional strings ([None == None] holds). *)
Definition eq_opt_str (a b : option string) : bool :=
  match a, b with
  | None, None => true
  | Some x, Some y => String.eqb x y
  | _, _ => false
  end.

(** [a is not None]. *)
Definition is_not_None {A : Type} (a : option A) : bool :=
  match a with
  | Some _ => true
  | None => false
  end.

(** [s.endswith(suffix)], by comparing the last [length suffix]
    characters of [s]. *)
Definition endswith (s suffix : string) : bool :=
  Nat.leb (String.length suffix) (String.length s)
  && String.eqb
       (substring (String.length s - String.length suffix)
                  (String.length suffix) s)
       suffix.

(** [s.startswith(p)]. *)
Definition startswith (s p : string) : bool := String.prefix p s.

(** The result of a call that either returns or raises. *)
Inductive outcome (E A : Type) : Type :=
| Return (a : A)
| Raise (e : E).
Arguments Return {E A} a.
Arguments Raise {E A} e.

End Py.

(* ===================================================================== *)
(** ** purplship.core: the unified models read and produced by the mappers *)
(* ===================================================================== *)

Module Core.

(** [purplship.core.models.Address], with the attributes the mappers
    read. *)
Record Address : Type := {
  person_name : option string;
  company_name : option string;
  address_line1 : option string;
  address_line2 : option string;
  suburb : option string;
  state_code : option string;
  postal_code : option string;
  country_code : option string;
  phone_number : option string;
  email : option string
}.

(** [purplship.core.models.Parcel]. *)
Record Parcel : Type := {
  id : option string;
  reference : option string;
  description : option string;
  length : option Q;
  width : option Q;
  height : option Q;
  weight : option Q;
  packaging_type : option string
}.

(** [purplship.core.models.RateRequest]; [rate_shipper], [rate_recipient]
    and [rate_parcel] are its attributes [shipper], [recipient] and
    [parcel]. *)
Record RateRequest : Type := {
  rate_shipper : Address;
  rate_recipient : Address;
  rate_parcel : Parcel
}.

(** [purplship.core.models.ShipmentRequest]; [request_reference] is its
    attribute [reference]. *)
Record ShipmentRequest : Type := {
  shipper : Address;
  recipient : Address;
  label_type : option string;
  request_reference : option string
}.

(** [purplship.core.models.ChargeDetails]. *)
Record ChargeDetails : Type := {
  name : option string;
  amount : option Q;
  charge_currency : option string
}.

(** [purplship.core.models.RateDetails]. *)
Record RateDetails : Type := {
  carrier : string;
  carrier_name : string;
  base_charge : option Q;
  duties_and_taxes : option Q;
  total_charge : option Q;
  currency : option string;
  discount : option Q;
  extra_charges : list ChargeDetails
}.

(** [purplship.core.utils.Serializable]: a value paired with the function
    that renders it. *)
Record Serializable (A R : Type) : Type := {
  value : A;
  serializer : A -> R
}.
Arguments value {A R} _.
Arguments serializer {A R} _ _.

Definition serialize {A R : Type} (s : Serializable A R) : R :=
  serializer s (value s).

(** [purplship.core.errors.OriginNotServicedError(origin, carrier)]. *)
Inductive Error : Type :=
| OriginNotServicedError (origin : option string) (carrier_label : string).

(** Fields of a carrier schema whose declared type is not visible from
    the mappers (they are only ever assigned [None]) hold an untyped
    JSON value. *)
#[warnings="-register-all"]
Inductive json : Type :=
| JString (s : string)
| JNumber (q : Q)
| JBool (b : bool)
| JArray (l : list json)
| JObject (l : list (string * json)).

End Core.

(* ===================================================================== *)
(** ** pyaups: the Australia Post schema classes *)
(* ===================================================================== *)

Module Pyaups.
Import Core.

(** [pyaups.shipping_price_request.From].  An attribute whose name is
    also an attribute of another class carries the name of its class
    ([from_name] is [From.name], [to_name] is [To.name], and so on). *)
Record From : Type := {
  from_name : option string;
  from_type : option json;
  from_lines : list (option string);
  from_suburb : option string;
  from_state : option string;
  from_postcode : option string;
  from_country : option string;
  from_phone : option string;
  from_email : option string
}.

(** [pyaups.shipping_price_request.To]. *)
Record To : Type := {
  to_name : option string;
  to_business_name : option string;
  to_type : option json;
  to_lines : list (option string);
  to_suburb : option string;
  to_state : option string;
  to_postcode : option string;
  to_country : option string;
  to_phone : option string;
  to_email : option string;
  to_delivery_instructions : option json
}.

(** [pyaups.shipping_price_request.Item]. *)
Record Item : Type := {
  item_reference : option string;
  product_id : option string;
  item_description : option string;
  item_length : option Q;
  item_width : option Q;
  item_height : option Q;
  cubic_volume : option json;
  item_weight : option Q;
  contains_dangerous_goods : option json;
  transportable_by_air : option json;
  dangerous_goods_declaration : option json;
  authority_to_leave : option bool;
  reason_for_return : option json;
  allow_partial_delivery : option bool;
  item_packaging_type : option string;
  atl_number : option json;
  item_features : option json;
  tracking_details : option json;
  commercial_value : option json;
  export_declaration_number : option json;
  import_reference_number : option json;
  classification_type : option json;
  description_of_other : option json;
  international_parcel_sender_name : option json;
  non_delivery_action : option json;
  certificate_number : option json;
  licence_number : option json;
  invoice_number : option json;
  comments : option json;
  tariff_concession : option json;
  free_trade_applicable : option json
}.

(** [pyaups.shipping_price_request.Shipment]. *)
Record Shipment : Type := {
  shipment_reference : option string;
  sender_references : option json;
  goods_descriptions : option json;
  despatch_date : option json;
  consolidate : option json;
  email_tracking_enabled : option bool;
  from_ : From;
  to : To;
  dangerous_goods : option json;
  movement_type : option json;
  features : option json;
  authorisation_number : option json;
  items : list Item
}.

(** [pyaups.shipping_price_request.ShippingPriceRequest]. *)
Record ShippingPriceRequest : Type := {
  shipments : list Shipment
}.

(** [pyaups.shipping_price_response.ShipmentSummary]; every attribute
    defaults to [None]. *)
Record ShipmentSummary : Type := {
  total_cost : option Q;
  total_cost_ex_gst : option Q;
  total_gst : option Q;
  fuel_surcharge : option Q;
  security_surcharge : option Q;
  transit_cover : option Q;
  freight_charge : option Q;
  summary_discount : option Q
}.

(** [ShipmentSummary()]. *)
Definition ShipmentSummary_default : ShipmentSummary :=
  {| total_cost := None; total_cost_ex_gst := None; total_gst := None;
     fuel_surcharge := None; security_surcharge := None;
     transit_cover := None; freight_charge := None;
     summary_discount := None |}.

(** [pyaups.shipping_price_response.Shipment]. *)
Record ResponseShipment : Type := {
  shipment_summary : option ShipmentSummary
}.

(** [pyaups.shipping_price_response.ShippingPriceResponse]. *)
Record ShippingPriceResponse : Type := {
  response_shipments : list ResponseShipment
}.

End Pyaups.

(* ===================================================================== *)
(** ** purplship.carriers.aups: shipping_price.py *)
(* ===================================================================== *)

Module Aups.
Import Py Core Pyaups.

(** [purplship.carriers.aups.utils.Settings], with the attributes the
    mapper reads. *)
Record Settings : Type := {
  settings_carrier : string;
  settings_carrier_name : string
}.

(** [purplship.core.models.Message]. *)
Record Message : Type := {
  message_carrier : string;
  message_carrier_name : string;
  code : option string;
  message : option string
}.

(** The raw response mapping handed to the parser: its ["shipments"]
    entry, as the [pyaups] constructor types it, and its ["errors"]
    entry when the key is present. *)
Record response_dict (RawError : Type) : Type := {
  raw_shipments : list ResponseShipment;
  raw_errors : option (list RawError)
}.
Arguments raw_shipments {RawError} _.
Arguments raw_errors {RawError} _.

(** The constructor [ShippingPriceResponse] applied to the unpacked
    response mapping. *)
Definition ShippingPriceResponse_init {RawError : Type}
    (response : response_dict RawError) : ShippingPriceResponse :=
  {| response_shipments := raw_shipments response |}.

(** [response.get("errors", [])]. *)
Definition get_errors {RawError : Type}
    (response : response_dict RawError) : list RawError :=
  match raw_errors response with
  | Some errors => errors
  | None => []
  end.

(** [Country.AU.name] and [Currency.AUD.name]: the name of an enum
    member is its identifier. *)
Definition Country_AU_name : string := "AU".
Definition Currency_AUD_name : string := "AUD".

(** Modelled from the spec: [purplship.core.utils.decimal] is not part
    of the sources at hand; the specification describes it as a
    conversion to an exact decimal value with no floating-point
    rounding, so a present amount is returned as it is and [None] stays
    [None]. *)
Definition decimal_exact (v : option Q) : option Q := v.

Section Mapper.

(** Collaborators that are not part of the sources at hand. *)

(** [purplship.core.utils.decimal]. *)
Variable decimal : option Q -> option Q.

(** [purplship.carriers.aups.units.PackagingType], as the list of its
    members in definition order, each a (name, value) pair. *)
Variable PackagingType : list (string * string).

(** [purplship.core.utils.to_dict] and [jsonify], and the plain
    mapping between them. *)
Variable JsonMapping : Type.
Variable to_dict : ShippingPriceRequest -> JsonMapping.
Variable jsonify : JsonMapping -> string.

(** The conversion of one entry of the ["errors"] list into a
    [Message]. *)
Variable RawError : Type.
Variable error_message : Settings -> RawError -> Message.

(** Modelled from the spec:
    [purplship.carriers.aups.error.parse_error_response] is not part
    of the sources at hand; the specification describes it as
    collecting the carrier-side error payloads into a normalized
    [Message] list.  Its argument [{"errors": errors}] is given by
    the list [errors]. *)
Definition parse_error_response (errors : list RawError)
    (settings : Settings) : list Message :=
  map (error_message settings) errors.

(** The dictionary [surcharges] of [_extract_quote], in insertion
    order. *)
Definition surcharges (summary : ShipmentSummary)
    : list (string * option Q) :=
  [ ("Fuel", fuel_surcharge summary);
    ("Security", security_surcharge summary);
    ("Transit Cover", transit_cover summary);
    ("Freight Charge", freight_charge summary) ].

(** The comprehension building [extra_charges]: one [ChargeDetails]
    per item of the dictionary whose amount [is not None]. *)
Fixpoint charges_of (entries : list (string * option Q))
    : list ChargeDetails :=
  match entries with
  | [] => []
  | (n, Some a) :: rest =>
      {| name := Some n;
         amount := decimal (Some a);
         charge_currency := Some Currency_AUD_name |}
      :: charges_of rest
  | (_, None) :: rest => charges_of rest
  end.

Definition _extract_quote (rate : ResponseShipment)
    (settings : Settings) : RateDetails :=
  let summary := or_obj (shipment_summary rate) ShipmentSummary_default in
  let extra_charges := charges_of (surcharges summary) in
  {| carrier := settings_carrier settings;
     carrier_name := settings_carrier_name settings;
     base_charge := decimal (total_cost_ex_gst summary);
     duties_and_taxes := decimal (total_gst summary);
     total_charge := decimal (total_cost summary);
     currency := Some Currency_AUD_name;
     discount := decimal (summary_discount summary);
     extra_charges := extra_charges |}.

Definition parse_shipping_price_response
    (response : response_dict RawError) (settings : Settings)
    : list RateDetails * list Message :=
  let price_response := ShippingPriceResponse_init response in
  ( map (fun rate => _extract_quote rate settings)
        (response_shipments price_response),
    parse_error_response (get_errors response) settings ).

(** [next((t.value for t in PackagingType if t.name == key), None)]. *)
Fixpoint find_packaging_type (members : list (string * string))
    (key : option string) : option string :=
  match members with
  | [] => None
  | (t_name, t_value) :: rest =>
      if eq_opt_str (Some t_name) key then Some t_value
      else find_packaging_type rest key
  end.

Definition _request_serializer (request : ShippingPriceRequest)
    : string :=
  jsonify (to_dict request).

(** The [ShippingPriceRequest(...)] expression of
    [shipping_price_request]. *)
Definition build_request (payload : RateRequest)
    (packaging_type : option string) : ShippingPriceRequest :=
  let shipper := rate_shipper payload in
  let recipient := rate_recipient payload in
  let parcel := rate_parcel payload in
  {| shipments := [
       {| shipment_reference := reference parcel;
          sender_references := None;
          goods_descriptions := None;
          despatch_date := None;
          consolidate := None;
          email_tracking_enabled := Some (is_not_None (email shipper));
          from_ :=
            {| from_name := person_name shipper;
               from_type := None;
               from_lines := [ address_line1 shipper;
                               address_line2 shipper ];
               from_suburb := suburb shipper;
               from_state := state_code shipper;
               from_postcode := postal_code shipper;
               from_country := country_code shipper;
               from_phone := phone_number shipper;
               from_email := email shipper |};
          to :=
            {| to_name := person_name recipient;
               to_business_name := company_name recipient;
               to_type := None;
               to_lines := [ address_line1 recipient;
                             address_line2 recipient ];
               to_suburb := suburb recipient;
               to_state := state_code recipient;
               to_postcode := postal_code recipient;
               to_country := country_code recipient;
               to_phone := phone_number recipient;
               to_email := email recipient;
               to_delivery_instructions := None |};
          dangerous_goods := None;
          movement_type := None;
          features := None;
          authorisation_number := None;
          items := [
            {| item_reference := reference parcel;
               product_id := id parcel;
               item_description := description parcel;
               item_length := length parcel;
               item_width := width parcel;
               item_height := height parcel;
               cubic_volume := None;
               item_weight := weight parcel;
               contains_dangerous_goods := None;
               transportable_by_air := None;
               dangerous_goods_declaration := None;
               authority_to_leave := Some false;
               reason_for_return := None;
               allow_partial_delivery := Some true;
               item_packaging_type := packaging_type;
               atl_number := None;
               item_features := None;
               tracking_details := None;
               commercial_value := None;
               export_declaration_number := None;
               import_reference_number := None;
               classification_type := None;
               description_of_other := None;
               international_parcel_sender_name := None;
               non_delivery_action := None;
               certificate_number := None;
               licence_number := None;
               invoice_number := None;
               comments := None;
               tariff_concession := None;
               free_trade_applicable := None |} ] |} ] |}.

Definition shipping_price_request (payload : RateRequest)
    : outcome Error (Serializable ShippingPriceRequest string) :=
  let origin := country_code (rate_shipper payload) in
  if truthy origin && negb (eq_opt_str origin (Some Country_AU_name))
  then Raise (OriginNotServicedError origin "Australia post")
  else
    let packaging_type :=
      find_packaging_type PackagingType
        (packaging_type (rate_parcel payload)) in
    let request := build_request payload packaging_type in
    Return {| value := request; serializer := _request_serializer |}.

End Mapper.

End Aups.

(* ===================================================================== *)
(** ** purolator_lib and the SOAP envelope *)
(* ===================================================================== *)

Module PurolatorLib.

(** Classes of [purolator_lib.shipping_documents_service_1_3_0].  An
    attribute named after its own class carries a trailing underscore. *)

Record RequestContext : Type := {
  Version : option string;
  Language : option string;
  GroupID : option string;
  RequestReference : option string;
  UserToken : option string
}.

Record PIN : Type := {
  Value : option string
}.

Record DocumentTypes : Type := {
  DocumentType : list string
}.

Record DocumentCriteria : Type := {
  PIN_ : option PIN;
  DocumentTypes_ : option DocumentTypes
}.

Record ArrayOfDocumentCriteria : Type := {
  DocumentCriteria_ : list DocumentCriteria
}.

Record GetDocumentsRequest : Type := {
  OutputType : option string;
  Synchronous : option bool;
  DocumentCriterium : option ArrayOfDocumentCriteria
}.

(** [purplship.core.utils.soap.Envelope] with its [Header] and [Body],
    as [_request_serializer] reads and writes them. *)
Record Header : Type := {
  header_ns_prefix_ : option string;
  header_anytypeobjs_ : list RequestContext
}.

Record Body : Type := {
  body_ns_prefix_ : option string;
  body_anytypeobjs_ : list GetDocumentsRequest
}.

Record Envelope : Type := {
  ns_prefix_ : option string;
  Header_ : Header;
  Body_ : Body
}.

End PurolatorLib.

(* ===================================================================== *)
(** ** purplship.providers.purolator: shipment/documents.py *)
(* ===================================================================== *)

Module Purolator.
Import Py Core PurolatorLib.

(** [purplship.providers.purolator.utils.Settings], with the attributes
    the builder reads. *)
Record Settings : Type := {
  language : option string;
  user_token : option string
}.

(** Modelled from the spec: [SF.concat_str] is not part of the sources
    at hand; the specification describes the call made by the builder,
    with [join=True], as the concatenation of its arguments with the
    given separator between them. *)
Definition concat_str (args : list string) (separator : string) : string :=
  String.concat separator args.

(** Modelled from the spec: [PrintType] and its [map] are not part of
    the sources at hand; the specification names the print types
    ["PDF"] and ["ZPL"] and asks for exact string equality on enum
    names.  [PrintType_map_name_exact key] is the [name] of
    [PrintType.map(key)], absent when [key] names no member. *)
Definition PrintType_names : list string := [ "PDF"; "ZPL" ].

Definition PrintType_map_name_exact (key : string) : option string :=
  if existsb (String.eqb key) PrintType_names then Some key else None.

(** The quotation mark, for attribute values inside [namespacedef_]. *)
Definition quote : string := String (ascii_of_nat 34) EmptyString.

Section Builder.

(** Collaborators that are not part of the sources at hand. *)

(** [PrintType.map(key).name]. *)
Variable PrintType_map_name : string -> option string.

(** The namespace prefix [create_envelope] gives a fresh envelope. *)
Variable envelope_prefix : option string.

(** [apply_namespaceprefix] on the object nested in the header and on
    the one nested in the body, and [XP.export]. *)
Variable apply_namespaceprefix_header :
  RequestContext -> string -> RequestContext.
Variable apply_namespaceprefix_body :
  GetDocumentsRequest -> string -> GetDocumentsRequest.
Variable XP_export : Envelope -> string -> string.

(** Modelled from the spec: [create_envelope] is not part of the
    sources at hand; the specification describes it as wrapping the
    header content and the body content in a two-part envelope, and
    [_request_serializer] finds each content as the first object
    nested in its part. *)
Definition create_envelope (header_content : RequestContext)
    (body_content : GetDocumentsRequest) : Envelope :=
  {| ns_prefix_ := envelope_prefix;
     Header_ := {| header_ns_prefix_ := envelope_prefix;
                   header_anytypeobjs_ := [ header_content ] |};
     Body_ := {| body_ns_prefix_ := envelope_prefix;
                 body_anytypeobjs_ := [ body_content ] |} |}.

Definition namespacedef_ : string :=
  "xmlns:soap=" ++ quote ++ "http://schemas.xmlsoap.org/soap/envelope/"
  ++ quote ++ " xmlns:v1=" ++ quote
  ++ "http://purolator.com/pws/datatypes/v1" ++ quote.

(** The serializer sets the three prefixes, prefixes the first object
    of the body and of the header, and exports; indexing an empty
    [anytypeobjs_] raises, which is [None] here. *)
Definition _request_serializer (envelope : Envelope) : option string :=
  let prefix := Some "soap" in
  match body_anytypeobjs_ (Body_ envelope),
        header_anytypeobjs_ (Header_ envelope) with
  | b :: bs, h :: hs =>
      Some (XP_export
              {| ns_prefix_ := prefix;
                 Header_ :=
                   {| header_ns_prefix_ := prefix;
                      header_anytypeobjs_ :=
                        apply_namespaceprefix_header h "v1" :: hs |};
                 Body_ :=
                   {| body_ns_prefix_ := prefix;
                      body_anytypeobjs_ :=
                        apply_namespaceprefix_body b "v1" :: bs |} |}
              namespacedef_)
  | _, _ => None
  end.

(** Line 19: [is_international]. *)
Definition is_international (payload : ShipmentRequest) : bool :=
  negb (eq_opt_str (country_code (shipper payload))
                   (country_code (recipient payload))).

(** Line 20: [label_type]. *)
Definition label_type_name (payload : ShipmentRequest) : option string :=
  PrintType_map_name (or_str (label_type payload) "PDF").

(** Lines 21-26: [document_type]. *)
Definition document_type (payload : ShipmentRequest) : string :=
  concat_str
    [ (if is_international payload then "International" else "Domestic");
      "BillOfLading";
      (if eq_opt_str (label_type_name payload) (Some "ZPL")
       then "Thermal" else EmptyString) ]
    EmptyString.

Definition get_shipping_documents_request (pin : string)
    (payload : ShipmentRequest) (settings : Settings)
    : Serializable Envelope (option string) :=
  let label_type := label_type_name payload in
  let document_type := document_type payload in
  let request :=
    create_envelope
      {| Version := Some "1.3";
         Language := language settings;
         GroupID := Some EmptyString;
         RequestReference := request_reference payload;
         UserToken := user_token settings |}
      {| OutputType := label_type;
         Synchronous := Some true;
         DocumentCriterium :=
           Some {| DocumentCriteria_ := [
                     {| PIN_ := Some {| Value := Some pin |};
                        DocumentTypes_ :=
                          Some {| DocumentType := [ document_type ] |}
                     |} ] |} |} in
  {| value := request; serializer := _request_serializer |}.

End Builder.

End Purolator.


(* ===================================================================== *)
(** ** Vocabulary of the properties, and sample inputs *)
(* ===================================================================== *)

Module AupsSamples.
Import Py Core Pyaups Aups.

(** The origin a request is refused for. *)
Definition not_serviced (origin : option string) (c : string) : Prop :=
  origin = Some c /\ c <> EmptyString /\ c <> "AU".

(** The origins a request is accepted for. *)
Definition serviced (origin : option string) : Prop :=
  origin = None \/ origin = Some EmptyString \/ origin = Some "AU".

(** A rate request for a parcel shipped from the country [origin]. *)
Definition sample_address (origin : option string) : Address :=
  {| person_name := Some "Jane"; company_name := None;
     address_line1 := Some "1 Main St"; address_line2 := None;
     suburb := Some "Sydney"; state_code := Some "NSW";
     postal_code := Some "2000"; country_code := origin;
     phone_number := None; email := Some "jane@example.com" |}.

Definition sample_parcel : Parcel :=
  {| id := None; reference := Some "REF"; description := None;
     length := Some (10 # 1); width := Some (10 # 1);
     height := Some (10 # 1); weight := Some (3 # 2);
     packaging_type := Some "sm" |}.

Definition sample_payload (origin : option string) : RateRequest :=
  {| rate_shipper := sample_address origin;
     rate_recipient := sample_address (Some "AU");
     rate_parcel := sample_parcel |}.

Definition sample_PackagingType : list (string * string) :=
  [ ("pak", "PAK"); ("sm", "SMALL") ].

Definition sample_to_dict (r : ShippingPriceRequest) : nat :=
  List.length (shipments r).

Definition sample_jsonify (n : nat) : string :=
  match n with O => "{}" | S _ => "{...}" end.

(** The summary of the worked example of the specification. *)
Definition sample_summary : ShipmentSummary :=
  {| total_cost := Some (110 # 1);
     total_cost_ex_gst := Some (100 # 1);
     total_gst := Some (10 # 1);
     fuel_surcharge := Some (21 # 2);
     security_surcharge := None;
     transit_cover := Some (2 # 1);
     freight_charge := None;
     summary_discount := Some (0 # 1) |}.

Definition sample_settings : Settings :=
  {| settings_carrier := "aups"; settings_carrier_name := "aups" |}.

Definition sample_error_message (settings : Settings) (e : string)
    : Message :=
  {| message_carrier := settings_carrier settings;
     message_carrier_name := settings_carrier_name settings;
     code := None;
     message := Some e |}.

End AupsSamples.

Module PurolatorSamples.
Import Py Core PurolatorLib Purolator.

(** A shipment between two countries, asking for a label format. *)
Definition sample_party (country : option string) : Address :=
  {| person_name := Some "Jane"; company_name := None;
     address_line1 := Some "1 Main St"; address_line2 := None;
     suburb := None; state_code := Some "ON";
     postal_code := Some "K1A0B1"; country_code := country;
     phone_number := None; email := None |}.

Definition sample_shipment (origin destination label : option string)
    : ShipmentRequest :=
  {| shipper := sample_party origin;
     recipient := sample_party destination;
     label_type := label;
     request_reference := Some "REF-1" |}.

Definition sample_credentials : Settings :=
  {| language := Some "en"; user_token := Some "token" |}.

Definition sample_prefix_header (c : RequestContext) (p : string)
    : RequestContext := c.

Definition sample_prefix_body (r : GetDocumentsRequest) (p : string)
    : GetDocumentsRequest := r.

Definition sample_export (e : Envelope) (namespacedef : string) : string :=
  "<soap:Envelope " ++ namespacedef ++ "/>".



End PurolatorSamples.

Module Views.
Import Py Core Pyaups Aups PurolatorLib Purolator.

(** Payloads seen through what a mapper reads of them. *)

(** An address with its company name left out. *)
Definition without_company (a : Address) : Address :=
  {| person_name := person_name a; company_name := None;
     address_line1 := address_line1 a; address_line2 := address_line2 a;
     suburb := suburb a; state_code := state_code a;
     postal_code := postal_code a; country_code := country_code a;
     phone_number := phone_number a; email := email a |}.

(** A parcel with its packaging type left out. *)
Definition without_packaging (p : Parcel) : Parcel :=
  {| id := id p; reference := reference p; description := description p;
     length := length p; width := width p; height := height p;
     weight := weight p; packaging_type := None |}.

(** A rate request whose shipper has another company name. *)
Definition with_shipper_company (payload : RateRequest)
    (company : option string) : RateRequest :=
  let a := rate_shipper payload in
  {| rate_shipper :=
       {| person_name := person_name a; company_name := company;
          address_line1 := address_line1 a;
          address_line2 := address_line2 a;
          suburb := suburb a; state_code := state_code a;
          postal_code := postal_code a; country_code := country_code a;
          phone_number := phone_number a; email := email a |};
     rate_recipient := rate_recipient payload;
     rate_parcel := rate_parcel payload |}.

(** A shipment request with shipper and recipient exchanged. *)
Definition swap_parties (payload : ShipmentRequest) : ShipmentRequest :=
  {| shipper := recipient payload;
     recipient := shipper payload;
     label_type := label_type payload;
     request_reference := request_reference payload |}.

(** The charge [_extract_quote] lists for a surcharge. *)
Definition charge_of (decimal : option Q -> option Q) (n : string) (a : Q)
    : ChargeDetails :=
  {| name := Some n;
     amount := decimal (Some a);
     charge_currency := Some "AUD" |}.

(** The summary a response shipment is read through. *)
Definition summary_of (rate : ResponseShipment) : ShipmentSummary :=
  match shipment_summary rate with
  | Some summary => summary
  | None => ShipmentSummary_default
  end.

(** A packaging table whose second name repeats the first. *)
Definition sample_members : list (string * string) :=
  [ ("sm", "SMALL"); ("md", "MEDIUM"); ("sm", "OTHER") ].

End Views.

(* ===================================================================== *)
(** * Properties *)
(* ===================================================================== *)

(** ** Facts about the Python expressions *)

Module PyFacts.
Import Py.

Lemma eq_opt_str_true (a b : option string) :
  eq_opt_str a b = true <-> a = b.
Proof.
  destruct a as [x|], b as [y|]; simpl; split; intro H;
    try reflexivity; try discriminate.
  - apply String.eqb_eq in H. now subst.
  - injection H as ->. apply String.eqb_refl.
Qed.

Lemma eq_opt_str_false (a b : option string) :
  eq_opt_str a b = false <-> a <> b.
Proof.
  split.
  - intros H E. apply eq_opt_str_true in E. congruence.
  - intro H. destruct (eq_opt_str a b) eqn:E; [|reflexivity].
    apply eq_opt_str_true in E. contradiction.
Qed.

Lemma truthy_true (o : option string) :
  truthy o = true <-> exists c, o = Some c /\ c <> EmptyString.
Proof.
  destruct o as [[|a s]|]; simpl; split.
  - discriminate.
  - intros (c & E & N). injection E as <-. now elim N.
  - intros _. exists (String a s). split; [reflexivity|discriminate].
  - reflexivity.
  - discriminate.
  - intros (c & E & _). discriminate.
Qed.

Lemma truthy_false (o : option string) :
  truthy o = false <-> o = None \/ o = Some EmptyString.
Proof.
  destruct o as [[|a s]|]; simpl; split; intro H;
    try reflexivity; try discriminate; auto.
  destruct H as [H|H]; discriminate.
Qed.

Lemma or_str_falsy (o : option string) (d : string) :
  truthy o = false -> or_str o d = d.
Proof.
  destruct o as [[|a s]|]; simpl; intro H;
    [reflexivity | discriminate | reflexivity].
Qed.

(** [endswith] and [startswith] on a few strings. *)
Example endswith_suffix : endswith "BillOfLadingThermal" "Thermal" = true.
Proof. reflexivity. Qed.

Example endswith_whole : endswith "Thermal" "Thermal" = true.
Proof. reflexivity. Qed.

Example endswith_shorter : endswith "mal" "Thermal" = false.
Proof. reflexivity. Qed.

Example endswith_inside : endswith "ThermalBill" "Thermal" = false.
Proof. reflexivity. Qed.

Example startswith_prefix :
  startswith "DomesticBillOfLading" "Domestic" = true
  /\ startswith "DomesticBillOfLading" "International" = false.
Proof. split; reflexivity. Qed.

End PyFacts.

(* ===================================================================== *)
(** ** The Australia Post rate mapper *)
(* ===================================================================== *)

Module AupsProperties.
Import Py Core Pyaups Aups AupsSamples PyFacts.

(** The mapper on the sample inputs. *)
Example shipping_price_request_from_canada :
  Aups.shipping_price_request sample_PackagingType nat sample_to_dict
    sample_jsonify (sample_payload (Some "CA"))
  = Raise (OriginNotServicedError (Some "CA") "Australia post").
Proof. reflexivity. Qed.

Example shipping_price_request_serialized :
  match Aups.shipping_price_request sample_PackagingType nat sample_to_dict
          sample_jsonify (sample_payload (Some "AU")) with
  | Return s => serialize s = "{...}"
  | Raise _ => False
  end.
Proof. reflexivity. Qed.

Example find_packaging_type_known :
  find_packaging_type sample_PackagingType (Some "sm") = Some "SMALL"
  /\ find_packaging_type sample_PackagingType (Some "SM") = None
  /\ find_packaging_type sample_PackagingType None = None.
Proof. repeat split. Qed.

Example parse_quote_and_error :
  Aups.parse_shipping_price_response decimal_exact string
    sample_error_message
    {| raw_shipments := [ {| shipment_summary := None |} ];
       raw_errors := Some [ "Invalid postcode" ] |} sample_settings
  = ( [ {| carrier := "aups"; carrier_name := "aups";
           base_charge := None; duties_and_taxes := None;
           total_charge := None; currency := Some "AUD";
           discount := None; extra_charges := [] |} ],
      [ {| message_carrier := "aups"; message_carrier_name := "aups";
           code := None; message := Some "Invalid postcode" |} ] ).
Proof. reflexivity. Qed.

Section Request.

Variable PackagingType : list (string * string).
Variable JsonMapping : Type.
Variable to_dict : ShippingPriceRequest -> JsonMapping.
Variable jsonify : JsonMapping -> string.

Local Abbreviation shipping_price_request :=
  (Aups.shipping_price_request PackagingType JsonMapping to_dict jsonify).
Local Abbreviation _request_serializer :=
  (Aups._request_serializer JsonMapping to_dict jsonify).

Lemma origin_cases (origin : option string) :
  (truthy origin && negb (eq_opt_str origin (Some Country_AU_name)) = true
   /\ exists c, not_serviced origin c)
  \/ (truthy origin && negb (eq_opt_str origin (Some Country_AU_name))
      = false
      /\ serviced origin).
Proof.
  unfold not_serviced, serviced, Country_AU_name.
  destruct origin as [[|a s]|]; cbn [truthy eq_opt_str andb].
  - right. auto.
  - destruct (String.eqb_spec (String a s) "AU") as [E|N];
      cbn [negb].
    + right. split; [reflexivity|]. right; right. now rewrite E.
    + left. split; [reflexivity|]. exists (String a s).
      repeat split; [discriminate | assumption].
  - right. auto.
Qed.

Lemma serviced_not_serviced (origin : option string) (c : string) :
  serviced origin -> not_serviced origin c -> False.
Proof.
  intros [H|[H|H]] (E & N1 & N2); rewrite H in E;
    [discriminate | injection E as <- | injection E as <-]; auto.
Qed.

(** The two ways out of [shipping_price_request]. *)
Lemma shipping_price_request_cases (payload : RateRequest) :
  let origin := country_code (rate_shipper payload) in
  (exists c, not_serviced origin c
     /\ shipping_price_request payload
        = Raise (OriginNotServicedError (Some c) "Australia post"))
  \/ (serviced origin
      /\ shipping_price_request payload
         = Return {| value :=
                       build_request payload
                         (find_packaging_type PackagingType
                            (packaging_type (rate_parcel payload)));
                     serializer := _request_serializer |}).
Proof.
  intro origin. unfold Aups.shipping_price_request. fold origin.
  destruct (origin_cases origin) as [[-> (c & H)]|[-> H]].
  - left. exists c. split; [exact H|]. destruct H as (-> & _).
    reflexivity.
  - right. split; [exact H | reflexivity].
Qed.

Lemma shipping_price_request_accepted (payload : RateRequest)
    (s : Serializable ShippingPriceRequest string) :
  shipping_price_request payload = Return s ->
  value s
  = build_request payload
      (find_packaging_type PackagingType
         (packaging_type (rate_parcel payload)))
  /\ serializer s = _request_serializer.
Proof.
  intro H.
  destruct (shipping_price_request_cases payload)
    as [(c & _ & E)|(_ & E)]; rewrite E in H.
  - discriminate.
  - injection H as <-. split; reflexivity.
Qed.

(** C1: [shipping_price_request] raises [OriginNotServicedError],
    carrying the shipper country code and the carrier label, exactly
    when the shipper country code is a non-empty string other than
    ["AU"]; when the code is ["AU"], empty or absent, the call returns
    a [Serializable] that pairs a request with [_request_serializer]. *)
Theorem shipping_price_request_origin_check (payload : RateRequest) :
  let origin := country_code (rate_shipper payload) in
  (forall e,
      shipping_price_request payload = Raise e <->
      exists c, not_serviced origin c
                /\ e = OriginNotServicedError (Some c) "Australia post")
  /\ ((exists e, shipping_price_request payload = Raise e) <->
      (exists c, not_serviced origin c))
  /\ (serviced origin ->
      exists request,
        shipping_price_request payload
        = Return {| value := request;
                    serializer := _request_serializer |}).
Proof.
  intro origin.
  pose proof (shipping_price_request_cases payload) as Cases.
  fold origin in Cases. cbv zeta in Cases.
  assert (Fst : forall e,
             shipping_price_request payload = Raise e <->
             exists c, not_serviced origin c
               /\ e = OriginNotServicedError (Some c) "Australia post").
  { intro e. split.
    - intro H. destruct Cases as [(c & N & E)|(_ & E)];
        rewrite E in H; [|discriminate].
      injection H as <-. exists c. split; [exact N | reflexivity].
    - intros (c & N & ->).
      destruct Cases as [(c' & N' & E)|(S & _)].
      + destruct N as (Ec & _), N' as (Ec' & _).
        rewrite Ec in Ec'. injection Ec' as <-. exact E.
      + elim (serviced_not_serviced origin c S N). }
  split; [exact Fst|]. split.
  - split.
    + intros (e & H). apply Fst in H. destruct H as (c & N & _).
      now exists c.
    + intros (c & N). eexists. apply Fst. exists c.
      split; [exact N | reflexivity].
  - intro S. destruct Cases as [(c & N & _)|(_ & E)].
    + elim (serviced_not_serviced origin c S N).
    + eexists. exact E.
Qed.

(** C7: the request built for an accepted payload holds exactly one
    shipment with exactly one item, and every carrier attribute that
    is not read from the payload is set to a constant: [None], except
    [authority_to_leave], set to [False], and
    [allow_partial_delivery], set to [True]. *)
Theorem shipping_price_request_single_shipment (payload : RateRequest)
    (s : Serializable ShippingPriceRequest string) :
  shipping_price_request payload = Return s ->
  exists shipment item,
    shipments (value s) = [ shipment ]
    /\ items shipment = [ item ]
    /\ (sender_references shipment = None
        /\ goods_descriptions shipment = None
        /\ despatch_date shipment = None
        /\ consolidate shipment = None
        /\ dangerous_goods shipment = None
        /\ movement_type shipment = None
        /\ features shipment = None
        /\ authorisation_number shipment = None)
    /\ (from_type (from_ shipment) = None
        /\ to_type (to shipment) = None
        /\ to_delivery_instructions (to shipment) = None)
    /\ (cubic_volume item = None
        /\ contains_dangerous_goods item = None
        /\ transportable_by_air item = None
        /\ dangerous_goods_declaration item = None
        /\ reason_for_return item = None
        /\ atl_number item = None
        /\ item_features item = None
        /\ tracking_details item = None
        /\ commercial_value item = None
        /\ export_declaration_number item = None
        /\ import_reference_number item = None
        /\ classification_type item = None
        /\ description_of_other item = None
        /\ international_parcel_sender_name item = None
        /\ non_delivery_action item = None
        /\ certificate_number item = None
        /\ licence_number item = None
        /\ invoice_number item = None
        /\ comments item = None
        /\ tariff_concession item = None
        /\ free_trade_applicable item = None)
    /\ authority_to_leave item = Some false
    /\ allow_partial_delivery item = Some true.
Proof.
  intro H. apply shipping_price_request_accepted in H.
  destruct H as (-> & _). unfold build_request. simpl.
  do 2 eexists. split; [reflexivity|]. simpl.
  split; [reflexivity|]. simpl. repeat split.
Qed.

(** C8: for an accepted payload the [From] object repeats the shipper
    and the [To] object the recipient, attribute by attribute (name,
    the two address lines, suburb, state code, postal code, country,
    phone, email), and [email_tracking_enabled] is [True] exactly
    when the shipper email is not [None]. *)
Theorem shipping_price_request_addresses (payload : RateRequest)
    (s : Serializable ShippingPriceRequest string) :
  shipping_price_request payload = Return s ->
  let shipper := rate_shipper payload in
  let recipient := rate_recipient payload in
  exists shipment,
    shipments (value s) = [ shipment ]
    /\ (from_name (from_ shipment) = person_name shipper
        /\ from_lines (from_ shipment)
           = [ address_line1 shipper; address_line2 shipper ]
        /\ from_suburb (from_ shipment) = suburb shipper
        /\ from_state (from_ shipment) = state_code shipper
        /\ from_postcode (from_ shipment) = postal_code shipper
        /\ from_country (from_ shipment) = country_code shipper
        /\ from_phone (from_ shipment) = phone_number shipper
        /\ from_email (from_ shipment) = email shipper)
    /\ (to_name (to shipment) = person_name recipient
        /\ to_lines (to shipment)
           = [ address_line1 recipient; address_line2 recipient ]
        /\ to_suburb (to shipment) = suburb recipient
        /\ to_state (to shipment) = state_code recipient
        /\ to_postcode (to shipment) = postal_code recipient
        /\ to_country (to shipment) = country_code recipient
        /\ to_phone (to shipment) = phone_number recipient
        /\ to_email (to shipment) = email recipient)
    /\ (exists enabled,
           email_tracking_enabled shipment = Some enabled
           /\ (enabled = true <-> email shipper <> None)).
Proof.
  intro H. apply shipping_price_request_accepted in H.
  destruct H as (-> & _). intros shipper recipient.
  unfold build_request. simpl. fold shipper recipient.
  eexists. split; [reflexivity|]. simpl.
  split; [repeat split|]. split; [repeat split|].
  exists (is_not_None (email shipper)). split; [reflexivity|].
  destruct (email shipper); simpl; split; congruence.
Qed.

End Request.

Lemma shipping_price_request_origin_check_witness :
  serviced (Some "AU")
  /\ exists request,
       Aups.shipping_price_request sample_PackagingType nat
         sample_to_dict sample_jsonify (sample_payload (Some "AU"))
       = Return {| value := request;
                   serializer :=
                     Aups._request_serializer nat sample_to_dict
                       sample_jsonify |}.
Proof.
  assert (S : serviced (Some "AU")) by (right; right; reflexivity).
  split; [exact S|].
  exact (proj2 (proj2 (shipping_price_request_origin_check
                         sample_PackagingType nat sample_to_dict
                         sample_jsonify (sample_payload (Some "AU"))))
               S).
Defined.

Lemma shipping_price_request_single_shipment_witness :
  let s := {| value := build_request (sample_payload None) (Some "SMALL");
              serializer :=
                Aups._request_serializer nat sample_to_dict
                  sample_jsonify |} in
  Aups.shipping_price_request sample_PackagingType nat sample_to_dict
    sample_jsonify (sample_payload None) = Return s
  /\ exists shipment item,
       shipments (value s) = [ shipment ] /\ items shipment = [ item ].
Proof.
  intro s.
  assert (H : Aups.shipping_price_request sample_PackagingType nat
                sample_to_dict sample_jsonify (sample_payload None)
              = Return s) by reflexivity.
  split; [exact H|].
  destruct (shipping_price_request_single_shipment sample_PackagingType
              nat sample_to_dict sample_jsonify (sample_payload None) s H)
    as (shipment & item & E1 & E2 & _).
  exists shipment, item. split; assumption.
Defined.

Lemma shipping_price_request_addresses_witness :
  let s := {| value := build_request (sample_payload (Some "AU"))
                         (Some "SMALL");
              serializer :=
                Aups._request_serializer nat sample_to_dict
                  sample_jsonify |} in
  Aups.shipping_price_request sample_PackagingType nat sample_to_dict
    sample_jsonify (sample_payload (Some "AU")) = Return s
  /\ exists shipment,
       shipments (value s) = [ shipment ]
       /\ from_country (from_ shipment) = Some "AU"
       /\ to_name (to shipment) = Some "Jane".
Proof.
  intro s.
  assert (H : Aups.shipping_price_request sample_PackagingType nat
                sample_to_dict sample_jsonify (sample_payload (Some "AU"))
              = Return s) by reflexivity.
  split; [exact H|].
  destruct (shipping_price_request_addresses sample_PackagingType
              nat sample_to_dict sample_jsonify
              (sample_payload (Some "AU")) s H)
    as (shipment & E & (_ & _ & _ & _ & _ & Ec & _) & (En & _) & _).
  exists shipment. repeat split; assumption.
Defined.

(** C2: [_extract_quote] reads the shipment summary, an empty one when
    the shipment has none; its extra charges are, in the order Fuel,
    Security, Transit Cover, Freight Charge, the surcharges that are
    not [None], each in AUD with its amount converted by [decimal];
    base charge, duties and taxes, total charge and discount are the
    conversions of [total_cost_ex_gst], [total_gst], [total_cost] and
    [discount]; the currency is AUD.  For the summary of the worked
    example the extra charges are Fuel 10.5 and Transit Cover 2.0, and
    with the exact conversion the amounts are 100, 10 and 110. *)
Theorem extract_quote_charges :
  (forall (decimal : option Q -> option Q) (rate : ResponseShipment)
          (settings : Settings),
      let summary :=
        match shipment_summary rate with
        | Some summary => summary
        | None => ShipmentSummary_default
        end in
      let quote := _extract_quote decimal rate settings in
      extra_charges quote
      = map (fun entry =>
               {| name := Some (fst entry);
                  amount := decimal (snd entry);
                  charge_currency := Some "AUD" |})
            (filter (fun entry => is_not_None (snd entry))
               [ ("Fuel", fuel_surcharge summary);
                 ("Security", security_surcharge summary);
                 ("Transit Cover", transit_cover summary);
                 ("Freight Charge", freight_charge summary) ])
      /\ base_charge quote = decimal (total_cost_ex_gst summary)
      /\ duties_and_taxes quote = decimal (total_gst summary)
      /\ total_charge quote = decimal (total_cost summary)
      /\ discount quote = decimal (summary_discount summary)
      /\ currency quote = Some "AUD"
      /\ carrier quote = settings_carrier settings
      /\ carrier_name quote = settings_carrier_name settings)
  /\ (forall (decimal : option Q -> option Q) (settings : Settings),
         _extract_quote decimal
           {| shipment_summary := Some sample_summary |} settings
         = {| carrier := settings_carrier settings;
              carrier_name := settings_carrier_name settings;
              base_charge := decimal (Some (100 # 1));
              duties_and_taxes := decimal (Some (10 # 1));
              total_charge := decimal (Some (110 # 1));
              currency := Some "AUD";
              discount := decimal (Some (0 # 1));
              extra_charges :=
                [ {| name := Some "Fuel";
                     amount := decimal (Some (21 # 2));
                     charge_currency := Some "AUD" |};
                  {| name := Some "Transit Cover";
                     amount := decimal (Some (2 # 1));
                     charge_currency := Some "AUD" |} ] |})
  /\ (forall settings : Settings,
         _extract_quote decimal_exact
           {| shipment_summary := Some sample_summary |} settings
         = {| carrier := settings_carrier settings;
              carrier_name := settings_carrier_name settings;
              base_charge := Some (100 # 1);
              duties_and_taxes := Some (10 # 1);
              total_charge := Some (110 # 1);
              currency := Some "AUD";
              discount := Some (0 # 1);
              extra_charges :=
                [ {| name := Some "Fuel";
                     amount := Some (21 # 2);
                     charge_currency := Some "AUD" |};
                  {| name := Some "Transit Cover";
                     amount := Some (2 # 1);
                     charge_currency := Some "AUD" |} ] |}).
Proof.
  split; [|split].
  - intros decimal rate settings summary quote.
    subst quote. unfold _extract_quote, or_obj. fold summary.
    cbn [extra_charges base_charge duties_and_taxes total_charge
         discount currency carrier carrier_name].
    split; [|repeat split].
    unfold surcharges.
    destruct (fuel_surcharge summary), (security_surcharge summary),
      (transit_cover summary), (freight_charge summary); reflexivity.
  - intros decimal settings. reflexivity.
  - intro settings. reflexivity.
Qed.

Section Response.

Variable decimal : option Q -> option Q.
Variable RawError : Type.
Variable error_message : Settings -> RawError -> Message.

Local Abbreviation _extract_quote := (Aups._extract_quote decimal).
Local Abbreviation parse_error_response :=
  (Aups.parse_error_response RawError error_message).
Local Abbreviation parse_shipping_price_response :=
  (Aups.parse_shipping_price_response decimal RawError error_message).

(** C5: [parse_shipping_price_response] returns a pair.  Its first
    component holds the quote of each entry of the shipments list,
    in order; its second component is the parsed ["errors"] entry,
    an empty list when the key is absent, whatever the shipments
    are.  No shipment and no error give two empty lists, and a
    response with a shipment and an error gives a quote together
    with a message. *)
Theorem parse_shipping_price_response_pair
    (response : response_dict RawError) (settings : Settings)
    (other_shipments : list ResponseShipment)
    (rate : ResponseShipment) (e : RawError) :
  let result := parse_shipping_price_response response settings in
  fst result
  = map (fun rate => _extract_quote rate settings)
        (raw_shipments response)
  /\ List.length (fst result) = List.length (raw_shipments response)
  /\ snd result
     = parse_error_response
         (match raw_errors response with
          | Some errors => errors
          | None => []
          end) settings
  /\ snd (parse_shipping_price_response
            {| raw_shipments := other_shipments;
               raw_errors := raw_errors response |} settings)
     = snd result
  /\ parse_shipping_price_response
       {| raw_shipments := []; raw_errors := Some [] |} settings
     = ([], [])
  /\ parse_shipping_price_response
       {| raw_shipments := []; raw_errors := None |} settings
     = ([], [])
  /\ parse_shipping_price_response
       {| raw_shipments := [ rate ]; raw_errors := Some [ e ] |} settings
     = ([ _extract_quote rate settings ], [ error_message settings e ]).
Proof.
  intro result. subst result.
  unfold Aups.parse_shipping_price_response, ShippingPriceResponse_init,
    get_errors.
  cbn [fst snd response_shipments raw_shipments raw_errors].
  repeat split. apply length_map.
Qed.

End Response.

End AupsProperties.

(* ===================================================================== *)
(** ** The Purolator shipping documents request *)
(* ===================================================================== *)

Module PurolatorProperties.
Import Py Core PurolatorLib Purolator PurolatorSamples PyFacts.

(** The builder on the sample inputs. *)
Example document_type_samples :
  Purolator.document_type PrintType_map_name_exact
    (sample_shipment (Some "CA") (Some "US") (Some "ZPL"))
  = "InternationalBillOfLadingThermal"
  /\ Purolator.document_type PrintType_map_name_exact
       (sample_shipment (Some "CA") (Some "CA") (Some "PDF"))
     = "DomesticBillOfLading"
  /\ Purolator.document_type PrintType_map_name_exact
       (sample_shipment None None None)
     = "DomesticBillOfLading".
Proof. repeat split. Qed.

Example request_serializer_sample :
  serialize
    (Purolator.get_shipping_documents_request PrintType_map_name_exact None
       sample_prefix_header sample_prefix_body sample_export "PIN123"
       (sample_shipment (Some "CA") (Some "US") None) sample_credentials)
  = Some ("<soap:Envelope " ++ Purolator.namespacedef_ ++ "/>").
Proof. reflexivity. Qed.

Section Documents.

Variable PrintType_map_name : string -> option string.
Variable envelope_prefix : option string.
Variable apply_namespaceprefix_header :
  RequestContext -> string -> RequestContext.
Variable apply_namespaceprefix_body :
  GetDocumentsRequest -> string -> GetDocumentsRequest.
Variable XP_export : Envelope -> string -> string.

Local Abbreviation label_type_name :=
  (Purolator.label_type_name PrintType_map_name).
Local Abbreviation document_type :=
  (Purolator.document_type PrintType_map_name).
Local Abbreviation get_shipping_documents_request :=
  (Purolator.get_shipping_documents_request PrintType_map_name
     envelope_prefix apply_namespaceprefix_header
     apply_namespaceprefix_body XP_export).

(** The document type is one of four strings. *)
Lemma document_type_unfold (payload : ShipmentRequest) :
  document_type payload
  = (if is_international payload then "International" else "Domestic")
    ++ "BillOfLading"
    ++ (if eq_opt_str (label_type_name payload) (Some "ZPL")
        then "Thermal" else EmptyString).
Proof.
  unfold Purolator.document_type, concat_str.
  destruct (is_international payload),
    (eq_opt_str (label_type_name payload) (Some "ZPL")); reflexivity.
Qed.

Lemma is_international_false (payload : ShipmentRequest) :
  is_international payload = false <->
  country_code (shipper payload) = country_code (recipient payload).
Proof.
  unfold is_international. rewrite negb_false_iff.
  apply eq_opt_str_true.
Qed.

Lemma is_international_true (payload : ShipmentRequest) :
  is_international payload = true <->
  country_code (shipper payload) <> country_code (recipient payload).
Proof.
  unfold is_international. rewrite negb_true_iff.
  apply eq_opt_str_false.
Qed.

(** Whether the document type ends with ["Thermal"] is whether the
    print-type name is ["ZPL"]. *)
Lemma document_type_endswith (payload : ShipmentRequest) :
  endswith (document_type payload) "Thermal"
  = eq_opt_str (label_type_name payload) (Some "ZPL").
Proof.
  rewrite document_type_unfold.
  destruct (is_international payload),
    (eq_opt_str (label_type_name payload) (Some "ZPL")); reflexivity.
Qed.

(** C3: the document type starts with ["Domestic"] when the shipper
    and recipient country codes are equal and with ["International"]
    when they differ; it is that prefix, then ["BillOfLading"], then
    ["Thermal"] or nothing, with nothing in between. *)
Theorem document_type_prefix (payload : ShipmentRequest) :
  let origin := country_code (shipper payload) in
  let destination := country_code (recipient payload) in
  (origin = destination ->
   startswith (document_type payload) "Domestic" = true)
  /\ (origin <> destination ->
      startswith (document_type payload) "International" = true)
  /\ document_type payload
     = (if eq_opt_str origin destination
        then "Domestic" else "International")
       ++ "BillOfLading"
       ++ (if eq_opt_str (label_type_name payload) (Some "ZPL")
           then "Thermal" else EmptyString).
Proof.
  intros origin destination.
  rewrite document_type_unfold.
  split; [|split].
  - intro E. apply is_international_false in E. rewrite E.
    destruct (eq_opt_str (label_type_name payload) (Some "ZPL"));
      reflexivity.
  - intro N. apply is_international_true in N. rewrite N.
    destruct (eq_opt_str (label_type_name payload) (Some "ZPL"));
      reflexivity.
  - unfold is_international. fold origin destination.
    destruct (eq_opt_str origin destination); reflexivity.
Qed.


(** C9: the envelope holds one header object, with [Version] "1.3",
    the language of the settings, an empty [GroupID], the reference
    of the payload and the user token of the settings, and one body
    object, with [OutputType] the mapped print-type name,
    [Synchronous] true, and a single document criterion made of the
    given tracking identifier and of the one-element list holding
    the computed document type. *)
Theorem get_shipping_documents_request_envelope (pin : string)
    (payload : ShipmentRequest) (settings : Settings) :
  let envelope :=
    value (get_shipping_documents_request pin payload settings) in
  header_anytypeobjs_ (Header_ envelope)
  = [ {| Version := Some "1.3";
         Language := language settings;
         GroupID := Some EmptyString;
         RequestReference := request_reference payload;
         UserToken := user_token settings |} ]
  /\ body_anytypeobjs_ (Body_ envelope)
     = [ {| OutputType :=
              PrintType_map_name
                (match label_type payload with
                 | Some (String c rest) => String c rest
                 | _ => "PDF"
                 end);
            Synchronous := Some true;
            DocumentCriterium :=
              Some {| DocumentCriteria_ := [
                        {| PIN_ := Some {| Value := Some pin |};
                           DocumentTypes_ :=
                             Some {| DocumentType :=
                                       [ document_type payload ] |}
                        |} ] |} |} ].
Proof.
  split; reflexivity.
Qed.

(** C10: when the label type of the payload is [None] or empty, the
    request is the one built for the label type ["PDF"]: its
    [OutputType] is the print-type name of ["PDF"], and, that name
    not being ["ZPL"], the document type has no ["Thermal"] suffix. *)
Theorem get_shipping_documents_request_default_label (pin : string)
    (payload : ShipmentRequest) (settings : Settings) :
  truthy (label_type payload) = false ->
  PrintType_map_name "PDF" <> Some "ZPL" ->
  let as_pdf :=
    {| shipper := shipper payload;
       recipient := recipient payload;
       label_type := Some "PDF";
       request_reference := request_reference payload |} in
  get_shipping_documents_request pin payload settings
  = get_shipping_documents_request pin as_pdf settings
  /\ (exists body,
         body_anytypeobjs_
           (Body_ (value (get_shipping_documents_request pin payload
                            settings)))
         = [ body ]
         /\ OutputType body = PrintType_map_name "PDF")
  /\ document_type payload
     = (if is_international payload
        then "International" else "Domestic") ++ "BillOfLading"
  /\ endswith (document_type payload) "Thermal" = false.
Proof.
  intros Falsy NotZPL as_pdf.
  assert (L : label_type_name payload = PrintType_map_name "PDF").
  { unfold Purolator.label_type_name.
    now rewrite (or_str_falsy _ _ Falsy). }
  assert (D : document_type payload = document_type as_pdf).
  { unfold Purolator.document_type. rewrite L. reflexivity. }
  split; [|split; [|split]].
  - unfold Purolator.get_shipping_documents_request.
    rewrite D, L. reflexivity.
  - eexists. split; [reflexivity|]. exact L.
  - rewrite document_type_unfold, L.
    apply eq_opt_str_false in NotZPL. rewrite NotZPL.
    destruct (is_international payload); reflexivity.
  - rewrite document_type_endswith, L. now apply eq_opt_str_false.
Qed.

End Documents.

Lemma document_type_prefix_witness :
  (Some "CA" = Some "CA"
   /\ startswith
        (Purolator.document_type PrintType_map_name_exact
           (sample_shipment (Some "CA") (Some "CA") (Some "ZPL")))
        "Domestic" = true)
  /\ (Some "CA" <> Some "US"
      /\ startswith
           (Purolator.document_type PrintType_map_name_exact
              (sample_shipment (Some "CA") (Some "US") (Some "PDF")))
           "International" = true).
Proof.
  split.
  - split; [reflexivity|].
    apply (proj1 (document_type_prefix PrintType_map_name_exact
                    (sample_shipment (Some "CA") (Some "CA")
                       (Some "ZPL")))).
    reflexivity.
  - assert (N : Some "CA" <> Some "US") by discriminate.
    split; [exact N|].
    apply (proj1 (proj2 (document_type_prefix PrintType_map_name_exact
                           (sample_shipment (Some "CA") (Some "US")
                              (Some "PDF"))))).
    exact N.
Defined.



Lemma get_shipping_documents_request_default_label_witness :
  truthy (label_type (sample_shipment (Some "CA") (Some "CA") None))
  = false
  /\ PrintType_map_name_exact "PDF" <> Some "ZPL"
  /\ endswith
       (Purolator.document_type PrintType_map_name_exact
          (sample_shipment (Some "CA") (Some "CA") None))
       "Thermal" = false.
Proof.
  assert (F : truthy (label_type
                        (sample_shipment (Some "CA") (Some "CA") None))
              = false) by reflexivity.
  assert (N : PrintType_map_name_exact "PDF" <> Some "ZPL")
    by discriminate.
  split; [exact F|]. split; [exact N|].
  exact (proj2 (proj2 (proj2
           (get_shipping_documents_request_default_label
              PrintType_map_name_exact None sample_prefix_header
              sample_prefix_body sample_export "PIN123"
              (sample_shipment (Some "CA") (Some "CA") None)
              sample_credentials F N)))).
Defined.

End PurolatorProperties.


(* ===================================================================== *)
(** ** More on the Australia Post rate mapper *)
(* ===================================================================== *)

Module AupsMore.
Import Py Core Pyaups Aups AupsSamples Views PyFacts.

(** *** The packaging type lookup *)

Lemma find_packaging_type_head (n v : string)
    (rest : list (string * string)) (key : option string) :
  find_packaging_type ((n, v) :: rest) key
  = if eq_opt_str (Some n) key then Some v
    else find_packaging_type rest key.
Proof. reflexivity. Qed.

(** X1: a packaging type code returned by the lookup is the value of a
    member of the table whose name is the requested packaging type. *)
Theorem find_packaging_type_sound (members : list (string * string))
    (key : option string) (v : string) :
  find_packaging_type members key = Some v ->
  exists n, key = Some n /\ In (n, v) members.
Proof.
  induction members as [|[n w] rest IH]; [discriminate|].
  rewrite find_packaging_type_head.
  destruct (eq_opt_str (Some n) key) eqn:E.
  - intro H. injection H as <-. apply eq_opt_str_true in E.
    exists n. split; [now symmetry | now left].
  - intro H. destruct (IH H) as (m & K & I).
    exists m. split; [exact K | now right].
Qed.

Lemma find_packaging_type_sound_witness :
  find_packaging_type sample_members (Some "md") = Some "MEDIUM"
  /\ exists n, Some "md" = Some n /\ In (n, "MEDIUM") sample_members.
Proof.
  assert (H : find_packaging_type sample_members (Some "md")
              = Some "MEDIUM") by reflexivity.
  split; [exact H|].
  exact (find_packaging_type_sound sample_members (Some "md") "MEDIUM" H).
Defined.

(** X2: the lookup gives [None] exactly when the requested packaging
    type is [None] or names no member of the table; the comparison is
    exact string equality. *)
Theorem find_packaging_type_none (members : list (string * string))
    (key : option string) :
  find_packaging_type members key = None <->
  (forall n v, key = Some n -> ~ In (n, v) members).
Proof.
  induction members as [|[n w] rest IH].
  - split; [intros _ m v _ [] | reflexivity].
  - rewrite find_packaging_type_head.
    destruct (eq_opt_str (Some n) key) eqn:E.
    + split; [discriminate|]. intro H. exfalso.
      apply eq_opt_str_true in E. apply (H n w); [now symmetry | now left].
    + rewrite IH. apply eq_opt_str_false in E. split.
      * intros H m v K [I|I].
        -- injection I as -> ->. now elim E.
        -- exact (H m v K I).
      * intros H m v K I. apply (H m v K). now right.
Qed.

Lemma find_packaging_type_none_witness :
  (forall n v, Some "SM" = Some n -> ~ In (n, v) sample_members)
  /\ find_packaging_type sample_members (Some "SM") = None.
Proof.
  assert (H : find_packaging_type sample_members (Some "SM") = None)
    by reflexivity.
  split; [|exact H].
  exact (proj1 (find_packaging_type_none sample_members (Some "SM")) H).
Defined.

(** X3: the lookup returns the value of the first member that bears the
    requested name: members before it bear other names, and a later
    member of the same name is never returned. *)
Theorem find_packaging_type_first (before after : list (string * string))
    (n v : string) :
  (forall w, ~ In (n, w) before) ->
  find_packaging_type (before ++ (n, v) :: after)%list (Some n) = Some v.
Proof.
  induction before as [|[m w] rest IH]; intro H.
  - simpl. now rewrite String.eqb_refl.
  - change ((((m, w) :: rest) ++ (n, v) :: after)%list)
      with ((m, w) :: (rest ++ (n, v) :: after)%list).
    rewrite find_packaging_type_head.
    destruct (eq_opt_str (Some m) (Some n)) eqn:E.
    + apply eq_opt_str_true in E. injection E as ->.
      elim (H w). now left.
    + apply IH. intros u I. apply (H u). now right.
Qed.

Lemma find_packaging_type_first_witness :
  (forall w, ~ In ("md", w) [ ("sm", "SMALL") ])
  /\ find_packaging_type sample_members (Some "md") = Some "MEDIUM".
Proof.
  assert (H : forall w, ~ In ("md", w) [ ("sm", "SMALL") ]).
  { intros w [I|[]]. discriminate. }
  split; [exact H|].
  exact (find_packaging_type_first [ ("sm", "SMALL") ]
           [ ("sm", "OTHER") ] "md" "MEDIUM" H).
Defined.

Section RequestMore.

Variable PackagingType : list (string * string).
Variable JsonMapping : Type.
Variable to_dict : ShippingPriceRequest -> JsonMapping.
Variable jsonify : JsonMapping -> string.

Local Abbreviation shipping_price_request :=
  (Aups.shipping_price_request PackagingType JsonMapping to_dict jsonify).
Local Abbreviation accepted :=
  (AupsProperties.shipping_price_request_accepted PackagingType JsonMapping
     to_dict jsonify).

(** X4: for an accepted payload the single item repeats the parcel
    (reference, id, description, length, width, height, weight), the
    shipment and the item share the parcel reference, and the item
    packaging type is the result of the lookup, so that a packaging type
    that names no member of the table leaves it [None] without
    raising. *)
Theorem shipping_price_request_item (payload : RateRequest)
    (s : Serializable ShippingPriceRequest string) :
  shipping_price_request payload = Return s ->
  let parcel := rate_parcel payload in
  exists shipment item,
    shipments (value s) = [ shipment ]
    /\ items shipment = [ item ]
    /\ shipment_reference shipment = reference parcel
    /\ item_reference item = reference parcel
    /\ product_id item = id parcel
    /\ item_description item = description parcel
    /\ item_length item = length parcel
    /\ item_width item = width parcel
    /\ item_height item = height parcel
    /\ item_weight item = weight parcel
    /\ item_packaging_type item
       = find_packaging_type PackagingType (packaging_type parcel)
    /\ ((forall n v, packaging_type parcel = Some n ->
                     ~ In (n, v) PackagingType) ->
        item_packaging_type item = None).
Proof.
  intro H. apply accepted in H. destruct H as (-> & _). intro parcel.
  do 2 eexists. split; [reflexivity|]. split; [reflexivity|].
  cbn. fold parcel. repeat (split; [reflexivity|]).
  apply find_packaging_type_none.
Qed.

(** X5: whether the call raises, and the error it raises, depend on the
    shipper country code alone: the recipient, the parcel and the other
    shipper attributes have no part in it. *)
Theorem shipping_price_request_origin_only (p1 p2 : RateRequest)
    (e : Error) :
  country_code (rate_shipper p1) = country_code (rate_shipper p2) ->
  shipping_price_request p1 = Raise e ->
  shipping_price_request p2 = Raise e.
Proof.
  unfold Aups.shipping_price_request. intros <-.
  destruct (truthy (country_code (rate_shipper p1))
            && negb (eq_opt_str (country_code (rate_shipper p1))
                       (Some Country_AU_name))).
  - exact (fun H => H).
  - discriminate.
Qed.

(** X6: the request keeps the payload apart from the shipper company
    name and the packaging type name: two accepted payloads with the same
    request have the same recipient, the same shipper up to its company
    name and the same parcel up to its packaging type, and their
    packaging types look up the same code. *)
Theorem shipping_price_request_injective (p1 p2 : RateRequest)
    (s1 s2 : Serializable ShippingPriceRequest string) :
  shipping_price_request p1 = Return s1 ->
  shipping_price_request p2 = Return s2 ->
  value s1 = value s2 ->
  rate_recipient p1 = rate_recipient p2
  /\ without_company (rate_shipper p1) = without_company (rate_shipper p2)
  /\ without_packaging (rate_parcel p1) = without_packaging (rate_parcel p2)
  /\ find_packaging_type PackagingType (packaging_type (rate_parcel p1))
     = find_packaging_type PackagingType (packaging_type (rate_parcel p2)).
Proof.
  intros H1 H2 E.
  apply accepted in H1. destruct H1 as (V1 & _).
  apply accepted in H2. destruct H2 as (V2 & _).
  rewrite V1, V2 in E. clear V1 V2 s1 s2.
  destruct p1 as [[] [] []], p2 as [[] [] []].
  unfold build_request in E. cbn in E.
  injection E as. subst. repeat split. cbn. assumption.
Qed.

End RequestMore.

Lemma shipping_price_request_item_witness :
  let s := {| value := build_request (sample_payload (Some "AU"))
                         (Some "SMALL");
              serializer :=
                Aups._request_serializer nat sample_to_dict
                  sample_jsonify |} in
  Aups.shipping_price_request sample_PackagingType nat sample_to_dict
    sample_jsonify (sample_payload (Some "AU")) = Return s
  /\ exists shipment item,
       shipments (value s) = [ shipment ]
       /\ items shipment = [ item ]
       /\ item_packaging_type item = Some "SMALL".
Proof.
  intro s.
  assert (H : Aups.shipping_price_request sample_PackagingType nat
                sample_to_dict sample_jsonify (sample_payload (Some "AU"))
              = Return s) by reflexivity.
  split; [exact H|].
  destruct (shipping_price_request_item sample_PackagingType nat
              sample_to_dict sample_jsonify (sample_payload (Some "AU"))
              s H)
    as (shipment & item & E1 & E2 & _ & _ & _ & _ & _ & _ & _ & _ & P & _).
  exists shipment, item. repeat split; assumption.
Defined.

Lemma shipping_price_request_origin_only_witness :
  country_code (rate_shipper (sample_payload (Some "CA")))
  = country_code
      (rate_shipper (with_shipper_company (sample_payload (Some "CA"))
                       (Some "ACME")))
  /\ Aups.shipping_price_request [] nat sample_to_dict sample_jsonify
       (with_shipper_company (sample_payload (Some "CA")) (Some "ACME"))
     = Raise (OriginNotServicedError (Some "CA") "Australia post").
Proof.
  split; [reflexivity|].
  apply (shipping_price_request_origin_only [] nat sample_to_dict
           sample_jsonify (sample_payload (Some "CA"))); reflexivity.
Defined.

Lemma shipping_price_request_injective_witness :
  let s1 := {| value := build_request (sample_payload (Some "AU"))
                          (Some "SMALL");
               serializer :=
                 Aups._request_serializer nat sample_to_dict
                   sample_jsonify |} in
  Aups.shipping_price_request sample_PackagingType nat sample_to_dict
    sample_jsonify (sample_payload (Some "AU")) = Return s1
  /\ Aups.shipping_price_request sample_PackagingType nat sample_to_dict
       sample_jsonify
       (with_shipper_company (sample_payload (Some "AU")) (Some "ACME"))
     = Return s1
  /\ without_company (rate_shipper (sample_payload (Some "AU")))
     = without_company
         (rate_shipper
            (with_shipper_company (sample_payload (Some "AU"))
               (Some "ACME"))).
Proof.
  intro s1.
  assert (H1 : Aups.shipping_price_request sample_PackagingType nat
                 sample_to_dict sample_jsonify (sample_payload (Some "AU"))
               = Return s1) by reflexivity.
  assert (H2 : Aups.shipping_price_request sample_PackagingType nat
                 sample_to_dict sample_jsonify
                 (with_shipper_company (sample_payload (Some "AU"))
                    (Some "ACME"))
               = Return s1) by reflexivity.
  split; [exact H1|]. split; [exact H2|].
  exact (proj1 (proj2 (shipping_price_request_injective
                         sample_PackagingType nat sample_to_dict
                         sample_jsonify _ _ s1 s1 H1 H2 eq_refl))).
Defined.

End AupsMore.

(* ===================================================================== *)
(** ** More on the Australia Post rate response parser *)
(* ===================================================================== *)

Module AupsQuotes.
Import Py Core Pyaups Aups AupsSamples Views PyFacts.

Section Quotes.

Variable decimal : option Q -> option Q.

Local Abbreviation _extract_quote := (Aups._extract_quote decimal).
Local Abbreviation charges_of := (Aups.charges_of decimal).

(** The charges built from a dictionary are those of its items whose
    amount is not [None]. *)
Lemma charges_of_In (entries : list (string * option Q))
    (c : ChargeDetails) :
  In c (charges_of entries) <->
  exists n a, In (n, Some a) entries /\ c = charge_of decimal n a.
Proof.
  induction entries as [|[m [b|]] rest IH]; simpl.
  - split; [intros [] | intros (n & a & [] & _)].
  - rewrite IH. split.
    + intros [<-|(n & a & I & ->)].
      * exists m, b. split; [now left | reflexivity].
      * exists n, a. split; [now right | reflexivity].
    + intros (n & a & [I|I] & ->).
      * injection I as -> ->. now left.
      * right. exists n, a. split; [assumption | reflexivity].
  - rewrite IH. split.
    + intros (n & a & I & ->). exists n, a.
      split; [now right | reflexivity].
    + intros (n & a & [I|I] & ->); [discriminate|].
      exists n, a. split; [assumption | reflexivity].
Qed.

Lemma extra_charges_unfold (rate : ResponseShipment) (settings : Settings) :
  extra_charges (_extract_quote rate settings)
  = charges_of (surcharges (summary_of rate)).
Proof. reflexivity. Qed.

(** X7: a charge is among the extra charges of a quote exactly when it
    is the AUD charge of one of the four surcharges whose amount is not
    [None]; the test is on [None], so a surcharge of amount zero is
    listed as well. *)
Theorem extract_quote_charge_listed (rate : ResponseShipment)
    (settings : Settings) (c : ChargeDetails) :
  let summary := summary_of rate in
  In c (extra_charges (_extract_quote rate settings)) <->
  exists n a,
    In (n, Some a)
       [ ("Fuel", fuel_surcharge summary);
         ("Security", security_surcharge summary);
         ("Transit Cover", transit_cover summary);
         ("Freight Charge", freight_charge summary) ]
    /\ c = charge_of decimal n a.
Proof.
  intro summary. rewrite extra_charges_unfold. apply charges_of_In.
Qed.

(** X8: a quote has as many extra charges as the summary has surcharges
    that are not [None], hence at most four, and no two of them have the
    same name. *)
Theorem extract_quote_charges_count (rate : ResponseShipment)
    (settings : Settings) :
  let summary := summary_of rate in
  let charges := extra_charges (_extract_quote rate settings) in
  List.length charges
  = List.length
      (filter is_not_None
         [ fuel_surcharge summary; security_surcharge summary;
           transit_cover summary; freight_charge summary ])
  /\ (List.length charges <= 4)%nat
  /\ NoDup (map name charges).
Proof.
  intros summary charges. subst charges.
  rewrite extra_charges_unfold. fold summary. unfold surcharges.
  destruct (fuel_surcharge summary), (security_surcharge summary),
    (transit_cover summary), (freight_charge summary); cbn;
    (split; [reflexivity|]);
    (split; [repeat constructor|]);
    repeat (constructor; [cbn; intuition discriminate|]);
    constructor.
Qed.

(** X9: a quote has no extra charge exactly when the four surcharges of
    the summary are all [None]; this is the case of a shipment without a
    summary, whose amounts are all the conversion of [None]. *)
Theorem extract_quote_no_charge (rate : ResponseShipment)
    (settings : Settings) :
  let summary := summary_of rate in
  let quote := _extract_quote rate settings in
  (extra_charges quote = [] <->
   fuel_surcharge summary = None
   /\ security_surcharge summary = None
   /\ transit_cover summary = None
   /\ freight_charge summary = None)
  /\ (shipment_summary rate = None ->
      extra_charges quote = []
      /\ base_charge quote = decimal None
      /\ duties_and_taxes quote = decimal None
      /\ total_charge quote = decimal None
      /\ discount quote = decimal None).
Proof.
  intros summary quote. subst quote. split.
  - rewrite extra_charges_unfold. fold summary. unfold surcharges.
    destruct (fuel_surcharge summary), (security_surcharge summary),
      (transit_cover summary), (freight_charge summary); cbn;
      split; try discriminate; try (intros (A & B & C & D); discriminate);
      repeat split.
  - subst summary. unfold Aups._extract_quote, summary_of, or_obj.
    intros ->. repeat split.
Qed.

Variable RawError : Type.
Variable error_message : Settings -> RawError -> Message.

Local Abbreviation parse_shipping_price_response :=
  (Aups.parse_shipping_price_response decimal RawError error_message).

(** X10: every quote returned by the parser bears the carrier and the
    carrier name of the settings and the currency AUD, and every extra
    charge of every quote is in AUD. *)
Theorem parse_shipping_price_response_currency
    (response : response_dict RawError) (settings : Settings) :
  Forall
    (fun quote =>
       carrier quote = settings_carrier settings
       /\ carrier_name quote = settings_carrier_name settings
       /\ currency quote = Some "AUD"
       /\ Forall (fun c => charge_currency c = Some "AUD")
                 (extra_charges quote))
    (fst (parse_shipping_price_response response settings)).
Proof.
  apply Forall_forall. intros quote I.
  unfold Aups.parse_shipping_price_response in I. cbn [fst] in I.
  apply in_map_iff in I. destruct I as (rate & <- & _).
  repeat (split; [reflexivity|]).
  apply Forall_forall. intros c I.
  rewrite extra_charges_unfold in I. apply charges_of_In in I.
  destruct I as (n & a & _ & ->). reflexivity.
Qed.

End Quotes.

Lemma extract_quote_charge_listed_witness :
  In ("Fuel", Some (0 # 1))
     [ ("Fuel", Some (0 # 1)); ("Security", None);
       ("Transit Cover", None); ("Freight Charge", None) ]
  /\ In (charge_of decimal_exact "Fuel" (0 # 1))
        (extra_charges
           (Aups._extract_quote decimal_exact
              {| shipment_summary :=
                   Some {| total_cost := None; total_cost_ex_gst := None;
                           total_gst := None;
                           fuel_surcharge := Some (0 # 1);
                           security_surcharge := None;
                           transit_cover := None;
                           freight_charge := None;
                           summary_discount := None |} |}
              sample_settings)).
Proof.
  assert (I : In ("Fuel", Some (0 # 1))
                 [ ("Fuel", Some (0 # 1)); ("Security", None);
                   ("Transit Cover", None); ("Freight Charge", None) ])
    by (now left).
  split; [exact I|].
  apply (proj2 (extract_quote_charge_listed decimal_exact _ sample_settings
                  (charge_of decimal_exact "Fuel" (0 # 1)))).
  exists "Fuel", (0 # 1). split; [exact I | reflexivity].
Defined.

Lemma extract_quote_no_charge_witness :
  shipment_summary {| shipment_summary := None |} = None
  /\ extra_charges
       (Aups._extract_quote decimal_exact {| shipment_summary := None |}
          sample_settings) = [].
Proof.
  split; [reflexivity|].
  exact (proj1 (proj2 (extract_quote_no_charge decimal_exact
                         {| shipment_summary := None |} sample_settings)
                      eq_refl)).
Defined.

End AupsQuotes.

(* ===================================================================== *)
(** ** More on the Purolator shipping documents request *)
(* ===================================================================== *)

Module PurolatorMore.
Import Py Core PurolatorLib Purolator PurolatorSamples Views PyFacts.

Lemma eq_opt_str_sym (a b : option string) :
  eq_opt_str a b = eq_opt_str b a.
Proof.
  destruct a, b; simpl; try reflexivity. apply String.eqb_sym.
Qed.

Section DocumentsMore.

Variable PrintType_map_name : string -> option string.
Variable envelope_prefix : option string.
Variable apply_namespaceprefix_header :
  RequestContext -> string -> RequestContext.
Variable apply_namespaceprefix_body :
  GetDocumentsRequest -> string -> GetDocumentsRequest.
Variable XP_export : Envelope -> string -> string.

Local Abbreviation label_type_name :=
  (Purolator.label_type_name PrintType_map_name).
Local Abbreviation document_type :=
  (Purolator.document_type PrintType_map_name).
Local Abbreviation _request_serializer :=
  (Purolator._request_serializer apply_namespaceprefix_header
     apply_namespaceprefix_body XP_export).
Local Abbreviation get_shipping_documents_request :=
  (Purolator.get_shipping_documents_request PrintType_map_name
     envelope_prefix apply_namespaceprefix_header
     apply_namespaceprefix_body XP_export).

(** X11: the serializer fails, on the index [0], exactly when the body
    or the header of the envelope holds no object. *)
Theorem request_serializer_fails (envelope : Envelope) :
  _request_serializer envelope = None <->
  body_anytypeobjs_ (Body_ envelope) = []
  \/ header_anytypeobjs_ (Header_ envelope) = [].
Proof.
  unfold Purolator._request_serializer.
  destruct (body_anytypeobjs_ (Body_ envelope)) as [|b bs],
    (header_anytypeobjs_ (Header_ envelope)) as [|h hs];
    split; intro H; try reflexivity; try discriminate; auto.
  destruct H; discriminate.
Qed.

(** X12: the serializer overwrites the namespace prefixes of the
    envelope, of its header and of its body: two envelopes that hold the
    same objects are rendered alike, whatever prefixes they came with. *)
Theorem request_serializer_ignores_prefixes (e1 e2 : Envelope) :
  header_anytypeobjs_ (Header_ e1) = header_anytypeobjs_ (Header_ e2) ->
  body_anytypeobjs_ (Body_ e1) = body_anytypeobjs_ (Body_ e2) ->
  _request_serializer e1 = _request_serializer e2.
Proof.
  unfold Purolator._request_serializer. intros -> ->. reflexivity.
Qed.

(** X13: when the serializer succeeds, what it exports is an envelope
    whose own prefix, header prefix and body prefix are ["soap"], that
    holds as many header and body objects as the envelope it was given,
    the first of each prefixed with ["v1"] and the others untouched, and
    the export receives the fixed namespace declarations. *)
Theorem request_serializer_exports (envelope : Envelope) (out : string) :
  _request_serializer envelope = Some out ->
  exists exported h hs b bs,
    out = XP_export exported namespacedef_
    /\ header_anytypeobjs_ (Header_ envelope) = h :: hs
    /\ body_anytypeobjs_ (Body_ envelope) = b :: bs
    /\ ns_prefix_ exported = Some "soap"
    /\ header_ns_prefix_ (Header_ exported) = Some "soap"
    /\ body_ns_prefix_ (Body_ exported) = Some "soap"
    /\ header_anytypeobjs_ (Header_ exported)
       = apply_namespaceprefix_header h "v1" :: hs
    /\ body_anytypeobjs_ (Body_ exported)
       = apply_namespaceprefix_body b "v1" :: bs.
Proof.
  unfold Purolator._request_serializer.
  destruct (body_anytypeobjs_ (Body_ envelope)) as [|b bs];
    [discriminate|].
  destruct (header_anytypeobjs_ (Header_ envelope)) as [|h hs];
    [discriminate|].
  intro H. injection H as <-.
  eexists. exists h, hs, b, bs. repeat split.
Qed.

(** X14: the request does not tell the shipper from the recipient:
    exchanging them gives the same request. *)
Theorem get_shipping_documents_request_swap (pin : string)
    (payload : ShipmentRequest) (settings : Settings) :
  get_shipping_documents_request pin (swap_parties payload) settings
  = get_shipping_documents_request pin payload settings.
Proof.
  unfold Purolator.get_shipping_documents_request,
    Purolator.document_type, Purolator.label_type_name, is_international.
  cbn [swap_parties shipper recipient label_type request_reference].
  rewrite (eq_opt_str_sym (country_code (recipient payload))).
  reflexivity.
Qed.

(** X15: of the payload the builder reads only whether the two country
    codes are equal, the label type (an empty one counting as absent)
    and the reference: two payloads that agree on these give the same
    request, whatever the rest of their addresses. *)
Theorem get_shipping_documents_request_reads (pin : string)
    (p1 p2 : ShipmentRequest) (settings : Settings) :
  eq_opt_str (country_code (shipper p1)) (country_code (recipient p1))
  = eq_opt_str (country_code (shipper p2)) (country_code (recipient p2)) ->
  or_str (label_type p1) "PDF" = or_str (label_type p2) "PDF" ->
  request_reference p1 = request_reference p2 ->
  get_shipping_documents_request pin p1 settings
  = get_shipping_documents_request pin p2 settings.
Proof.
  unfold Purolator.get_shipping_documents_request,
    Purolator.document_type, Purolator.label_type_name, is_international.
  intros -> -> ->. reflexivity.
Qed.

(** X16: in every request the document type and the output type agree:
    the single document type of the single criterion ends with
    ["Thermal"] exactly when [OutputType] is ["ZPL"]. *)
Theorem get_shipping_documents_request_consistent (pin : string)
    (payload : ShipmentRequest) (settings : Settings) :
  exists body criteria criterion types doctype,
    body_anytypeobjs_
      (Body_ (value (get_shipping_documents_request pin payload settings)))
    = [ body ]
    /\ DocumentCriterium body = Some criteria
    /\ DocumentCriteria_ criteria = [ criterion ]
    /\ DocumentTypes_ criterion = Some types
    /\ DocumentType types = [ doctype ]
    /\ (endswith doctype "Thermal" = true <->
        OutputType body = Some "ZPL").
Proof.
  do 5 eexists. repeat (split; [reflexivity|]).
  cbn [OutputType].
  rewrite (PurolatorProperties.document_type_endswith PrintType_map_name).
  apply eq_opt_str_true.
Qed.

End DocumentsMore.

Lemma request_serializer_fails_witness :
  (body_anytypeobjs_
     (Body_ {| ns_prefix_ := None;
               Header_ := {| header_ns_prefix_ := None;
                             header_anytypeobjs_ := [] |};
               Body_ := {| body_ns_prefix_ := None;
                           body_anytypeobjs_ := [] |} |}) = []
   \/ header_anytypeobjs_
        (Header_ {| ns_prefix_ := None;
                    Header_ := {| header_ns_prefix_ := None;
                                  header_anytypeobjs_ := [] |};
                    Body_ := {| body_ns_prefix_ := None;
                                body_anytypeobjs_ := [] |} |}) = [])
  /\ Purolator._request_serializer sample_prefix_header sample_prefix_body
       sample_export
       {| ns_prefix_ := None;
          Header_ := {| header_ns_prefix_ := None;
                        header_anytypeobjs_ := [] |};
          Body_ := {| body_ns_prefix_ := None;
                      body_anytypeobjs_ := [] |} |} = None.
Proof.
  split; [left; reflexivity|].
  apply (proj2 (request_serializer_fails sample_prefix_header
                  sample_prefix_body sample_export _)).
  left. reflexivity.
Defined.

Lemma request_serializer_ignores_prefixes_witness :
  let e1 :=
    value (Purolator.get_shipping_documents_request
             PrintType_map_name_exact None sample_prefix_header
             sample_prefix_body sample_export "PIN123"
             (sample_shipment (Some "CA") (Some "US") None)
             sample_credentials) in
  let e2 :=
    value (Purolator.get_shipping_documents_request
             PrintType_map_name_exact (Some "tns") sample_prefix_header
             sample_prefix_body sample_export "PIN123"
             (sample_shipment (Some "CA") (Some "US") None)
             sample_credentials) in
  header_anytypeobjs_ (Header_ e1) = header_anytypeobjs_ (Header_ e2)
  /\ body_anytypeobjs_ (Body_ e1) = body_anytypeobjs_ (Body_ e2)
  /\ Purolator._request_serializer sample_prefix_header sample_prefix_body
       sample_export e1
     = Purolator._request_serializer sample_prefix_header
         sample_prefix_body sample_export e2.
Proof.
  intros e1 e2.
  assert (H : header_anytypeobjs_ (Header_ e1)
              = header_anytypeobjs_ (Header_ e2)) by reflexivity.
  assert (B : body_anytypeobjs_ (Body_ e1)
              = body_anytypeobjs_ (Body_ e2)) by reflexivity.
  split; [exact H|]. split; [exact B|].
  exact (request_serializer_ignores_prefixes sample_prefix_header
           sample_prefix_body sample_export e1 e2 H B).
Defined.

Lemma request_serializer_exports_witness :
  let envelope :=
    value (Purolator.get_shipping_documents_request
             PrintType_map_name_exact None sample_prefix_header
             sample_prefix_body sample_export "PIN123"
             (sample_shipment (Some "CA") (Some "US") None)
             sample_credentials) in
  let out := "<soap:Envelope " ++ Purolator.namespacedef_ ++ "/>" in
  Purolator._request_serializer sample_prefix_header sample_prefix_body
    sample_export envelope = Some out
  /\ exists exported,
       out = sample_export exported namespacedef_
       /\ ns_prefix_ exported = Some "soap".
Proof.
  intros envelope out.
  assert (H : Purolator._request_serializer sample_prefix_header
                sample_prefix_body sample_export envelope = Some out)
    by reflexivity.
  split; [exact H|].
  destruct (request_serializer_exports sample_prefix_header
              sample_prefix_body sample_export envelope out H)
    as (exported & h & hs & b & bs & E & _ & _ & P & _).
  exists exported. split; assumption.
Defined.

Lemma get_shipping_documents_request_reads_witness :
  let p1 := sample_shipment (Some "CA") (Some "US") None in
  let p2 := sample_shipment (Some "FR") None (Some EmptyString) in
  eq_opt_str (country_code (shipper p1)) (country_code (recipient p1))
  = eq_opt_str (country_code (shipper p2)) (country_code (recipient p2))
  /\ or_str (label_type p1) "PDF" = or_str (label_type p2) "PDF"
  /\ request_reference p1 = request_reference p2
  /\ Purolator.get_shipping_documents_request PrintType_map_name_exact
       None sample_prefix_header sample_prefix_body sample_export "PIN123"
       p1 sample_credentials
     = Purolator.get_shipping_documents_request PrintType_map_name_exact
         None sample_prefix_header sample_prefix_body sample_export
         "PIN123" p2 sample_credentials.
Proof.
  intros p1 p2.
  repeat (split; [reflexivity|]).
  apply (get_shipping_documents_request_reads PrintType_map_name_exact
           None sample_prefix_header sample_prefix_body sample_export
           "PIN123" p1 p2 sample_credentials); reflexivity.
Defined.

End PurolatorMore.
